(** * Campus Data Workflow Automation System: the bootstrap module [main.py]

    A shallow embedding of [src/main.py] and a verification of what its
    specification says about it.

    [main.py] is a module whose toplevel runs, in order: three imports, the
    call [models.Base.metadata.create_all(bind=engine)], the construction of
    the [FastAPI] application object, and the registration of the handler
    [root] under [GET /].  The toplevel is embedded as a computation in a
    state-and-exception monad over the state of the Python process; the
    handler is embedded as the function it is.

    Layout:
    - [Py]       the monad of a Python process (state, exceptions);
    - [Database] the packages [database.db] and [database.models], which the
                 module imports and which are not part of the sources at hand;
    - [FastAPI]  the calls of the web framework that the module makes;
    - [Main]     the module [main.py] itself, statement by statement;
    - the theorems. *)

From Stdlib Require Import ZArith Ascii String List.
From stdpp Require Import base option list gmap strings.

Local Open Scope string_scope.
Local Open Scope Z_scope.

(* ===================================================================== *)
(** ** Data shared by all layers                                          *)
(* ===================================================================== *)

(** A Python [dict] with [str] keys and [str] values.  Python dictionaries
    keep insertion order, so the embedding is an association list. *)
Definition pydict := list (string * string).

(** The schema of one table: its columns, as (name, SQL type). *)
Definition Schema := list (string * string).

(** The tables declared on [Base.metadata], in creation order
    ([MetaData.sorted_tables]). *)
Definition MetaData := list (string * Schema).

(** A reference to an engine object (its identity). *)
Definition EngineRef := nat.

(** Exceptions that reach the toplevel of the process. *)
Inductive exn :=
| OperationalError (msg : string)
| ImportError (name : string)
| NameError (name : string).

(** What the process did while loading its modules, oldest event first. *)
Inductive Event :=
| EvImport (module : string)
| EvCreateEngine (e : EngineRef)
| EvCreateAll (bind : EngineRef)
| EvNewApp (title version : string)
| EvAddRoute (path : string) (by_program : bool).

(** An HTTP request as the ASGI server hands it to the application. *)
Record Request := {
  method : string;
  path : string;
  headers : list (string * string);
  req_body : string
}.

(** The pages the framework generates by itself. *)
Inductive DocPage :=
| SwaggerUI (page_title : string)
| SwaggerUIRedirect
| ReDoc (page_title : string).

(** The document served under [openapi_url]: the parts of it that depend on
    the application. *)
Record OpenAPI := {
  info_title : string;
  info_version : string;
  schema_paths : list string
}.

(** What a response carries.  Of a redirect, whose [Location] header is an
    absolute URL on the host the request came to, the path is kept. *)
Inductive Body :=
| JSONBody (content : pydict)
| OpenAPIBody (doc : OpenAPI)
| HTMLBody (page : DocPage)
| RedirectTo (location_path : string).

Record Response := {
  status_code : Z;
  body : Body
}.

(** The callables a route can dispatch to. *)
Inductive Endpoint :=
| ep_root
| ep_openapi
| ep_swagger_ui_html
| ep_swagger_ui_redirect
| ep_redoc_html.

Record Route := {
  route_path : string;
  route_methods : list string;
  route_endpoint : Endpoint;
  include_in_schema : bool
}.

(** The application object. *)
Record App := {
  title : string;
  version : string;
  openapi_url : option string;
  docs_url : option string;
  redoc_url : option string;
  swagger_ui_oauth2_redirect_url : option string;
  routes : list Route;
  openapi_schema : option OpenAPI
}.

(** The state of the Python process and of the world it runs in. *)
Record Process := {
  argv : list string;
  environ : gmap string string;
  (** the database behind the configured connection, table name to schema;
      [None] when the connection cannot be established *)
  storage : option (gmap string Schema);
  (** [sys.modules]: the modules whose body has already run *)
  sys_modules : gset string;
  (** the number of engine objects created so far *)
  engines : nat;
  (** the global [engine] of [database.db] *)
  db_engine : option EngineRef;
  (** the globals [engine] and [app] of [main] *)
  main_engine : option EngineRef;
  main_app : option App;
  trace : list Event
}.

(** A process that has not run any Python code yet. *)
Definition boot (args : list string) (env : gmap string string)
    (st : option (gmap string Schema)) : Process :=
  {| argv := args; environ := env; storage := st;
     sys_modules := ∅; engines := 0%nat; db_engine := None;
     main_engine := None; main_app := None; trace := [] |}.

(* ===================================================================== *)
(** ** The monad of a Python process                                      *)
(* ===================================================================== *)

Module Py.

Inductive result (A : Type) :=
| Ok (a : A)
| Raise (e : exn).
Arguments Ok {A} a.
Arguments Raise {A} e.

(** A computation reads and updates the process, and either returns or
    raises.  An exception that nothing catches ends the process, so no
    state comes with it. *)
Definition M (A : Type) : Type := Process -> result (A * Process).

Definition ret {A} (a : A) : M A := fun p => Ok (a, p).

Definition bind {A B} (m : M A) (k : A -> M B) : M B :=
  fun p => match m p with
           | Ok (a, p') => k a p'
           | Raise e => Raise e
           end.

Definition raise {A} (e : exn) : M A := fun _ => Raise e.

Definition get : M Process := fun p => Ok (p, p).

Definition modify (f : Process -> Process) : M unit := fun p => Ok (tt, f p).

(** The state a computation ends in, when it returns. *)
Definition exec {A} (m : M A) (p : Process) : result Process :=
  match m p with
  | Ok (_, p') => Ok p'
  | Raise e => Raise e
  end.

End Py.
Import Py.

Declare Scope py_scope.
Delimit Scope py_scope with py.
Notation "x <- c1 ;; c2" := (bind c1 (fun x => c2))
  (at level 100, c1 at next level, right associativity) : py_scope.
Notation "c1 ;; c2" := (bind c1 (fun _ => c2))
  (at level 100, right associativity) : py_scope.
Local Open Scope py_scope.

(** Field updates of the process state. *)
Definition set_storage (st : option (gmap string Schema)) (p : Process) : Process :=
  {| argv := argv p; environ := environ p; storage := st;
     sys_modules := sys_modules p; engines := engines p;
     db_engine := db_engine p; main_engine := main_engine p;
     main_app := main_app p; trace := trace p |}.

Definition set_sys_modules (ms : gset string) (p : Process) : Process :=
  {| argv := argv p; environ := environ p; storage := storage p;
     sys_modules := ms; engines := engines p;
     db_engine := db_engine p; main_engine := main_engine p;
     main_app := main_app p; trace := trace p |}.

Definition set_engines (n : nat) (p : Process) : Process :=
  {| argv := argv p; environ := environ p; storage := storage p;
     sys_modules := sys_modules p; engines := n;
     db_engine := db_engine p; main_engine := main_engine p;
     main_app := main_app p; trace := trace p |}.

Definition set_db_engine (e : option EngineRef) (p : Process) : Process :=
  {| argv := argv p; environ := environ p; storage := storage p;
     sys_modules := sys_modules p; engines := engines p;
     db_engine := e; main_engine := main_engine p;
     main_app := main_app p; trace := trace p |}.

Definition set_main_engine (e : option EngineRef) (p : Process) : Process :=
  {| argv := argv p; environ := environ p; storage := storage p;
     sys_modules := sys_modules p; engines := engines p;
     db_engine := db_engine p; main_engine := e;
     main_app := main_app p; trace := trace p |}.

Definition set_main_app (a : option App) (p : Process) : Process :=
  {| argv := argv p; environ := environ p; storage := storage p;
     sys_modules := sys_modules p; engines := engines p;
     db_engine := db_engine p; main_engine := main_engine p;
     main_app := a; trace := trace p |}.

Definition log (ev : Event) (p : Process) : Process :=
  {| argv := argv p; environ := environ p; storage := storage p;
     sys_modules := sys_modules p; engines := engines p;
     db_engine := db_engine p; main_engine := main_engine p;
     main_app := main_app p; trace := trace p ++ [ev] |}.

(** [import m]: the body of a module runs the first time it is imported and
    never again. *)
Definition import (name : string) (module_body : M unit) : M unit :=
  p <- get ;;
  if decide (name ∈ sys_modules p) then ret tt
  else
    modify (fun p => set_sys_modules ({[name]} ∪ sys_modules p) p) ;;
    modify (log (EvImport name)) ;;
    module_body.

(* ===================================================================== *)
(** ** The package [database]                                             *)
(* ===================================================================== *)

Module Database.

(** Modelled from the spec: [database/db.py] is imported by [main.py] and is
    not among the sources.  The spec describes its [engine] as "a configured
    handle to a relational database", "created once at module load".  The
    module body creates one engine object and binds it to the global
    [engine]. *)
Definition create_engine : M EngineRef :=
  p <- get ;;
  let e := engines p in
  modify (set_engines (S e)) ;;
  modify (log (EvCreateEngine e)) ;;
  ret e.

Definition db_body : M unit :=
  e <- create_engine ;;
  modify (set_db_engine (Some e)).

(** [from database.db import engine] *)
Definition import_engine : M EngineRef :=
  import "database" (ret tt) ;;
  import "database.db" db_body ;;
  p <- get ;;
  match db_engine p with
  | Some e => ret e
  | None => raise (ImportError "engine")
  end.

(** Modelled from the spec: [database/models.py] is imported by [main.py] and
    is not among the sources.  Its table declarations ("external model
    declarations not shown") are the parameter [declared]; importing the
    module makes them available as [models.Base.metadata]. *)
Definition import_models (declared : MetaData) : M MetaData :=
  import "database" (ret tt) ;;
  import "database.models" (ret tt) ;;
  ret declared.

(** Modelled from the spec: [Base.metadata.create_all], reached through the
    missing [database/models.py], is the "create all tables if absent" call:
    "ensure all declared persistent-storage schemas exist in the configured
    database, creating any missing ones; existing schemas are left
    untouched", and it "fails only if the underlying storage connection is
    unreachable". *)
Definition create_table_if_absent (db : gmap string Schema)
    (t : string * Schema) : gmap string Schema :=
  match db !! t.1 with
  | Some _ => db
  | None => <[t.1 := t.2]> db
  end.

Definition ensure_tables (md : MetaData) (db : gmap string Schema)
    : gmap string Schema :=
  foldl create_table_if_absent db md.

Definition create_all (md : MetaData) (bind : EngineRef) : M unit :=
  p <- get ;;
  match storage p with
  | None => raise (OperationalError "unable to open database file")
  | Some db =>
      modify (log (EvCreateAll bind)) ;;
      modify (set_storage (Some (ensure_tables md db)))
  end.

End Database.

(* ===================================================================== *)
(** ** The framework calls that [main.py] makes                           *)
(* ===================================================================== *)

Module FastAPI.

Definition set_routes (rs : list Route) (a : App) : App :=
  {| title := title a; version := version a; openapi_url := openapi_url a;
     docs_url := docs_url a; redoc_url := redoc_url a;
     swagger_ui_oauth2_redirect_url := swagger_ui_oauth2_redirect_url a;
     routes := rs; openapi_schema := openapi_schema a |}.

Definition set_openapi_schema (d : option OpenAPI) (a : App) : App :=
  {| title := title a; version := version a; openapi_url := openapi_url a;
     docs_url := docs_url a; redoc_url := redoc_url a;
     swagger_ui_oauth2_redirect_url := swagger_ui_oauth2_redirect_url a;
     routes := routes a; openapi_schema := d |}.

(** [add_route(path, endpoint, include_in_schema=False)]: a plain route for
    a function endpoint answers [GET], and with it [HEAD]. *)
Definition add_route (p : string) (ep : Endpoint) (a : App) : App :=
  set_routes (routes a ++ [ {| route_path := p; route_methods := ["GET"; "HEAD"];
                               route_endpoint := ep;
                               include_in_schema := false |} ]) a.

(** [add_api_route(path, endpoint, methods=["GET"])]: the route of a path
    operation answers the methods it was given and no other. *)
Definition add_api_route (p : string) (ep : Endpoint) (methods : list string)
    (a : App) : App :=
  set_routes (routes a ++ [ {| route_path := p; route_methods := methods;
                               route_endpoint := ep;
                               include_in_schema := true |} ]) a.

(** [FastAPI.setup]: the routes of the generated documentation, one for each
    documentation URL that is set. *)
Definition setup (a : App) : App :=
  let a :=
    match openapi_url a with
    | Some url => add_route url ep_openapi a
    | None => a
    end in
  let a :=
    match openapi_url a, docs_url a with
    | Some _, Some url =>
        let a := add_route url ep_swagger_ui_html a in
        match swagger_ui_oauth2_redirect_url a with
        | Some url' => add_route url' ep_swagger_ui_redirect a
        | None => a
        end
    | _, _ => a
    end in
  match openapi_url a, redoc_url a with
  | Some _, Some url => add_route url ep_redoc_html a
  | _, _ => a
  end.

(** [FastAPI(title=..., version=...)]: every other argument of the
    constructor keeps its default, the documentation URLs among them. *)
Definition init (t v : string) : App :=
  setup {| title := t; version := v;
           openapi_url := Some "/openapi.json";
           docs_url := Some "/docs";
           redoc_url := Some "/redoc";
           swagger_ui_oauth2_redirect_url := Some "/docs/oauth2-redirect";
           routes := [];
           openapi_schema := None |}.

(** The constructor as a step of the process: the routes that [init] adds
    are recorded as added by the framework. *)
Definition new (t v : string) : M App :=
  let a := init t v in
  modify (log (EvNewApp t v)) ;;
  modify (fun p => foldl (fun p r => log (EvAddRoute (route_path r) false) p)
                         p (routes a)) ;;
  ret a.

(** [app.openapi()]: the document is generated on first use and kept on the
    application object. *)
Definition openapi (a : App) : App * OpenAPI :=
  match openapi_schema a with
  | Some d => (a, d)
  | None =>
      let d := {| info_title := title a; info_version := version a;
                  schema_paths :=
                    map route_path (filter (fun r => include_in_schema r = true)
                                           (routes a)) |} in
      (set_openapi_schema (Some d) a, d)
  end.

(** Route matching.  None of the paths of this application has a parameter,
    so the pattern compiled for a route is [^path$], and it is applied with
    [re.match]: it accepts the route's path and, [$] matching before a final
    newline too, the route's path followed by one line feed. *)
Inductive Match := NONE | PARTIAL | FULL.

Definition path_regex_match (pattern p : string) : bool :=
  bool_decide (p = pattern)
  || bool_decide (p = pattern ++ String "010"%char EmptyString).

Definition matches (r : Route) (m p : string) : Match :=
  if path_regex_match (route_path r) p then
    if decide (m ∈ route_methods r) then FULL else PARTIAL
  else NONE.

(** The router's loop: the first full match handles the request; failing
    that, the first partial match does. *)
Fixpoint route_for (rs : list Route) (m p : string) (partial : option Route)
    : option Route :=
  match rs with
  | [] => partial
  | r :: rs' =>
      match matches r m p with
      | FULL => Some r
      | PARTIAL =>
          route_for rs' m p (match partial with None => Some r | Some _ => partial end)
      | NONE => route_for rs' m p partial
      end
  end.

(** [str.rstrip("/")] and [str.endswith("/")]. *)
Fixpoint rstrip_slash (s : string) : string :=
  match s with
  | EmptyString => EmptyString
  | String c s' =>
      match rstrip_slash s' with
      | EmptyString => if Ascii.eqb c "/"%char then EmptyString else String c EmptyString
      | t => String c t
      end
  end.

Fixpoint endswith_slash (s : string) : bool :=
  match s with
  | EmptyString => false
  | String c EmptyString => Ascii.eqb c "/"%char
  | String _ s' => endswith_slash s'
  end.

(** [redirect_slashes]: the path with its trailing slashes removed, or with
    one added. *)
Definition redirect_path (p : string) : string :=
  if endswith_slash p then rstrip_slash p else p ++ "/".

Definition matches_any (rs : list Route) (m p : string) : bool :=
  existsb (fun r => match matches r m p with NONE => false | _ => true end) rs.

Definition json_response (d : pydict) : Response :=
  {| status_code := 200; body := JSONBody d |}.

Definition http_exception (code : Z) (detail : string) : Response :=
  {| status_code := code; body := JSONBody [("detail", detail)] |}.

Section Dispatch.

(** The function of the program that [ep_root] stands for. *)
Variable user_endpoint : M pydict.

(** The application object of the process is the one bound to the global
    [app] of [main]; the ASGI server is started on [main:app]. *)
Definition the_app : M App :=
  p <- get ;;
  match main_app p with
  | Some a => ret a
  | None => raise (NameError "app")
  end.

Definition call_endpoint (ep : Endpoint) : M Response :=
  match ep with
  | ep_root =>
      d <- user_endpoint ;;
      ret (json_response d)
  | ep_openapi =>
      a <- the_app ;;
      let '(a', d) := openapi a in
      modify (set_main_app (Some a')) ;;
      ret {| status_code := 200; body := OpenAPIBody d |}
  | ep_swagger_ui_html =>
      a <- the_app ;;
      ret {| status_code := 200;
             body := HTMLBody (SwaggerUI (title a ++ " - Swagger UI")) |}
  | ep_swagger_ui_redirect =>
      ret {| status_code := 200; body := HTMLBody SwaggerUIRedirect |}
  | ep_redoc_html =>
      a <- the_app ;;
      ret {| status_code := 200;
             body := HTMLBody (ReDoc (title a ++ " - ReDoc")) |}
  end.

(** A route handles a request: a method it does not answer is refused. *)
Definition handle (r : Route) (req : Request) : M Response :=
  if decide (method req ∈ route_methods r) then call_endpoint (route_endpoint r)
  else ret (http_exception 405 "Method Not Allowed").

(** The application answers one request. *)
Definition serve (req : Request) : M Response :=
  a <- the_app ;;
  match route_for (routes a) (method req) (path req) None with
  | Some r => handle r req
  | None =>
      if bool_decide (path req ≠ "/")
         && matches_any (routes a) (method req) (redirect_path (path req))
      then ret {| status_code := 307;
                  body := RedirectTo (redirect_path (path req)) |}
      else ret (http_exception 404 "Not Found")
  end.

(** The application answers a sequence of requests, one after the other. *)
Fixpoint serve_all (reqs : list Request) : M (list Response) :=
  match reqs with
  | [] => ret []
  | req :: reqs' =>
      r <- serve req ;;
      rs <- serve_all reqs' ;;
      ret (r :: rs)
  end.

End Dispatch.

(** [@app.get(path)] applied to a function of the program: registers the
    function on the application object bound to [app] and leaves the function
    as it is. *)
Definition get (p : string) (ep : Endpoint) : M unit :=
  a <- the_app ;;
  modify (set_main_app (Some (add_api_route p ep ["GET"] a))) ;;
  modify (log (EvAddRoute p true)).

End FastAPI.

(* ===================================================================== *)
(** ** The module [main.py]                                               *)
(* ===================================================================== *)

Module Main.

(** [def root(): return {...}] *)
Definition root : M pydict :=
  ret [ ("status", "Backend running");
        ("module", "Foundation");
        ("database", "SQLite") ].

(** Reading the global [engine] of [main]. *)
Definition engine : M EngineRef :=
  p <- get ;;
  match main_engine p with
  | Some e => ret e
  | None => raise (NameError "engine")
  end.

Section Toplevel.

(** The tables that [database/models.py] declares. *)
Variable declared : MetaData.

(** The statements of the module, in source order. *)
Definition toplevel : M unit :=
  (* from fastapi import FastAPI *)
  import "fastapi" (ret tt) ;;
  (* from database.db import engine *)
  e <- Database.import_engine ;;
  modify (set_main_engine (Some e)) ;;
  (* from database import models *)
  metadata <- Database.import_models declared ;;
  (* models.Base.metadata.create_all(bind=engine) *)
  bind <- engine ;;
  Database.create_all metadata bind ;;
  (* app = FastAPI(title=..., version=...) *)
  app <- FastAPI.new "Campus Data Workflow Automation System" "0.1.0" ;;
  modify (set_main_app (Some app)) ;;
  (* @app.get("/") def root(): ... *)
  FastAPI.get "/" ep_root.

(** Starting the process: the server imports [main]. *)
Definition load : M unit := import "main" toplevel.

(** One request, answered by the application of [main]. *)
Definition serve (req : Request) : M Response := FastAPI.serve root req.

(** A whole run of the process: start, then answer the requests in turn. *)
Definition run (reqs : list Request) : M (list Response) :=
  load ;;
  FastAPI.serve_all root reqs.

End Toplevel.

End Main.

(** Starting the same program again on what the previous process left
    behind: same arguments, same environment, same database. *)
Definition restart (p : Process) : Process :=
  boot (argv p) (environ p) (storage p).

(** [a] happens before [b] in a trace. *)
Definition happens_before (a b : Event) (tr : list Event) : Prop :=
  exists l1 l2 l3 : list Event,
    tr = (l1 ++ a :: l2 ++ b :: l3)%list /\ (b ∉ l1) /\ (b ∉ l2).

(** The declared tables are all present in the database. *)
Definition tables_created (md : MetaData) (p : Process) : Prop :=
  exists db, storage p = Some db /\
    forall name : string, name ∈ md.*1 -> is_Some (db !! name).

(** The application object once [main] has been imported. *)
Definition loaded_app : App :=
  FastAPI.add_api_route "/" ep_root ["GET"]
    (FastAPI.init "Campus Data Workflow Automation System" "0.1.0").

(** The same object once its OpenAPI document has been generated. *)
Definition app_with_docs (cached : bool) : App :=
  if cached then (FastAPI.openapi loaded_app).1 else loaded_app.

(** What the process has done once [main] has been imported. *)
Definition load_trace : list Event :=
  [ EvImport "main";
    EvImport "fastapi";
    EvImport "database";
    EvImport "database.db";
    EvCreateEngine 0%nat;
    EvImport "database.models";
    EvCreateAll 0%nat;
    EvNewApp "Campus Data Workflow Automation System" "0.1.0";
    EvAddRoute "/openapi.json" false;
    EvAddRoute "/docs" false;
    EvAddRoute "/docs/oauth2-redirect" false;
    EvAddRoute "/redoc" false;
    EvAddRoute "/" true ].

(** The process while it serves requests: started on a database [db] that
    could be reached, with [declared] the declared tables. *)
Definition serving (args : list string) (env : gmap string string)
    (declared : MetaData) (db : gmap string Schema) (cached : bool) : Process :=
  {| argv := args; environ := env;
     storage := Some (Database.ensure_tables declared db);
     sys_modules :=
       {[ "database.models" ]} ∪ ({[ "database.db" ]} ∪ ({[ "database" ]} ∪
         ({[ "fastapi" ]} ∪ ({[ "main" ]} ∪ ∅))));
     engines := 1%nat; db_engine := Some 0%nat; main_engine := Some 0%nat;
     main_app := Some (app_with_docs cached);
     trace := load_trace |}.

(** The same process in another environment: other command-line arguments,
    other environment variables. *)
Definition with_env (args : list string) (env : gmap string string)
    (p : Process) : Process :=
  {| argv := args; environ := env; storage := storage p;
     sys_modules := sys_modules p; engines := engines p;
     db_engine := db_engine p; main_engine := main_engine p;
     main_app := main_app p; trace := trace p |}.

(** The routes that the program registered itself. *)
Definition registered_by_program (ev : Event) : bool :=
  match ev with
  | EvAddRoute _ by_program => by_program
  | _ => false
  end.

(** The events that involve an engine. *)
Definition touches_engine (ev : Event) : bool :=
  match ev with
  | EvCreateEngine _ | EvCreateAll _ => true
  | _ => false
  end.

Definition GET (p : string) : Request :=
  {| method := "GET"; path := p; headers := []; req_body := "" |}.

Definition demo_tables : MetaData :=
  [ ("students", [("id", "INTEGER"); ("name", "VARCHAR")]);
    ("courses", [("id", "INTEGER"); ("title", "VARCHAR")]) ].

Definition demo_db : gmap string Schema :=
  {[ "students" := [("id", "INTEGER")] ]}.

(* ===================================================================== *)
(** ** Starting the process                                               *)
(* ===================================================================== *)

Lemma load_reachable (md : MetaData) args env (db : gmap string Schema) :
  Main.load md (boot args env (Some db)) = Ok (tt, serving args env md db false).
Proof. vm_compute. reflexivity. Qed.

Lemma load_unreachable (md : MetaData) args env :
  Main.load md (boot args env None)
  = Raise (OperationalError "unable to open database file").
Proof. vm_compute. reflexivity. Qed.

(* ===================================================================== *)
(** ** The schema-creation call on a database                             *)
(* ===================================================================== *)

Section EnsureTables.

Implicit Types (db : gmap string Schema) (md : MetaData).

(** One step of the call keeps what is there and adds what is not. *)
Lemma create_table_if_absent_union db (t : string * Schema) :
  Database.create_table_if_absent db t = db ∪ {[ t.1 := t.2 ]}.
Proof.
  unfold Database.create_table_if_absent.
  apply map_eq. intros k. rewrite lookup_union.
  destruct (db !! t.1) as [sch|] eqn:E.
  - destruct (decide (k = t.1)) as [->|Hne].
    + rewrite E, lookup_singleton_eq. reflexivity.
    + rewrite lookup_singleton_ne by congruence.
      destruct (db !! k); reflexivity.
  - destruct (decide (k = t.1)) as [->|Hne].
    + rewrite lookup_insert_eq, E, lookup_singleton_eq. reflexivity.
    + rewrite lookup_insert_ne, lookup_singleton_ne by congruence.
      destruct (db !! k); reflexivity.
Qed.

(** The whole call is a union that prefers the database: the declared
    tables fill the gaps, the first declaration of a name winning. *)
Lemma ensure_tables_union md db :
  Database.ensure_tables md db = db ∪ list_to_map md.
Proof.
  unfold Database.ensure_tables. revert db.
  induction md as [|[name sch] md IH]; intros db; simpl.
  - rewrite (right_id_L ∅ (∪)). reflexivity.
  - rewrite IH, create_table_if_absent_union. simpl.
    rewrite <- (assoc_L (∪)), <- insert_union_singleton_l. reflexivity.
Qed.

Lemma ensure_tables_keeps md db name sch :
  db !! name = Some sch -> Database.ensure_tables md db !! name = Some sch.
Proof.
  intros H. rewrite ensure_tables_union. apply lookup_union_Some_l. exact H.
Qed.

Lemma ensure_tables_creates md db name :
  name ∈ md.*1 -> is_Some (Database.ensure_tables md db !! name).
Proof.
  intros H. rewrite ensure_tables_union, lookup_union_is_Some.
  right. destruct (list_to_map md !! name) as [sch|] eqn:E; [eauto|].
  apply (not_elem_of_list_to_map_2 (M := gmap string)) in E. contradiction.
Qed.

Lemma ensure_tables_origin md db name sch :
  Database.ensure_tables md db !! name = Some sch ->
  db !! name = Some sch \/ (db !! name = None /\ (name, sch) ∈ md).
Proof.
  rewrite ensure_tables_union, lookup_union_Some_raw.
  intros [H|[H1 H2]]; [left; exact H|right].
  split; [exact H1|]. apply elem_of_list_to_map_2 in H2. exact H2.
Qed.

Lemma ensure_tables_idempotent md db :
  Database.ensure_tables md (Database.ensure_tables md db)
  = Database.ensure_tables md db.
Proof.
  rewrite !ensure_tables_union.
  rewrite <- (assoc_L (∪)), (idemp_L (∪)). reflexivity.
Qed.

End EnsureTables.

(* ===================================================================== *)
(** ** Answering requests                                                 *)
(* ===================================================================== *)

Lemma bind_Ok {A B} (m : M A) (k : A -> M B) (p p' : Process) (a : A) :
  m p = Ok (a, p') -> bind m k p = k a p'.
Proof. intros H. unfold bind. rewrite H. reflexivity. Qed.

Lemma bind_Raise {A B} (m : M A) (k : A -> M B) (p : Process) (e : exn) :
  m p = Raise e -> bind m k p = Raise e.
Proof. intros H. unfold bind. rewrite H. reflexivity. Qed.

Lemma the_app_Some (p : Process) (a : App) :
  main_app p = Some a -> FastAPI.the_app p = Ok (a, p).
Proof. intros H. unfold FastAPI.the_app, bind, get. rewrite H. reflexivity. Qed.

(** An endpoint either leaves the process as it is or stores the generated
    OpenAPI document on the application object; it never raises. *)
Lemma call_endpoint_cases (p : Process) (a : App) (ep : Endpoint) :
  main_app p = Some a ->
  exists resp,
    FastAPI.call_endpoint Main.root ep p = Ok (resp, p) \/
    FastAPI.call_endpoint Main.root ep p
    = Ok (resp, set_main_app (Some (FastAPI.openapi a).1) p).
Proof.
  intros Ha.
  destruct ep; cbn [FastAPI.call_endpoint];
    rewrite ?(bind_Ok _ _ _ _ _ (the_app_Some _ _ Ha)); cbn.
  - eexists; left; reflexivity.
  - destruct (FastAPI.openapi a) as [a' d]. eexists; right; reflexivity.
  - eexists; left; reflexivity.
  - eexists; left; reflexivity.
  - eexists; left; reflexivity.
Qed.

(** So does a request. *)
Lemma serve_cases (p : Process) (a : App) (req : Request) :
  main_app p = Some a ->
  exists resp,
    Main.serve req p = Ok (resp, p) \/
    Main.serve req p = Ok (resp, set_main_app (Some (FastAPI.openapi a).1) p).
Proof.
  intros Ha.
  unfold Main.serve, FastAPI.serve.
  rewrite (bind_Ok _ _ _ _ _ (the_app_Some _ _ Ha)).
  destruct (FastAPI.route_for _ _ _ _) as [r|].
  - unfold FastAPI.handle. destruct (decide _).
    + apply call_endpoint_cases, Ha.
    + eexists; left; reflexivity.
  - destruct (_ && _); eexists; left; reflexivity.
Qed.

Section Serving.

Variables (args : list string) (env : gmap string string) (md : MetaData).

Implicit Types (db : gmap string Schema) (c : bool).

Lemma serve_serving db (req : Request) c :
  exists resp c',
    Main.serve req (serving args env md db c)
    = Ok (resp, serving args env md db c').
Proof.
  destruct (serve_cases (serving args env md db c) (app_with_docs c) req eq_refl)
    as [resp [H|H]]; rewrite H.
  - exists resp, c. reflexivity.
  - exists resp, true. destruct c; reflexivity.
Qed.

Lemma serve_all_serving db (reqs : list Request) c :
  exists resps c',
    FastAPI.serve_all Main.root reqs (serving args env md db c)
    = Ok (resps, serving args env md db c').
Proof.
  revert c. induction reqs as [|req reqs IH]; intros c; simpl.
  - exists [], c. reflexivity.
  - destruct (serve_serving db req c) as (resp & c1 & H1).
    destruct (IH c1) as (resps & c2 & H2).
    exists (resp :: resps), c2.
    rewrite (bind_Ok _ _ _ _ _ H1), (bind_Ok _ _ _ _ _ H2). reflexivity.
Qed.

(** A run on a database that can be reached answers every request. *)
Lemma run_reachable db (reqs : list Request) :
  exists resps c,
    Main.run md reqs (boot args env (Some db))
    = Ok (resps, serving args env md db c).
Proof.
  destruct (serve_all_serving db reqs false) as (resps & c & H).
  exists resps, c. unfold Main.run.
  rewrite (bind_Ok _ _ _ _ _ (load_reachable md args env db)). exact H.
Qed.

(** A run on a database that cannot be reached answers none. *)
Lemma run_unreachable (reqs : list Request) :
  Main.run md reqs (boot args env None)
  = Raise (OperationalError "unable to open database file").
Proof.
  unfold Main.run. apply bind_Raise, load_unreachable.
Qed.

(** The states a run can end in. *)
Lemma run_inv (st : option (gmap string Schema)) (reqs : list Request)
    (resps : list Response) (p : Process) :
  Main.run md reqs (boot args env st) = Ok (resps, p) ->
  exists db c, st = Some db /\ p = serving args env md db c.
Proof.
  destruct st as [db|].
  - destruct (run_reachable db reqs) as (resps' & c & H').
    rewrite H'. intros [= _ <-]. exists db, c. split; reflexivity.
  - rewrite run_unreachable. discriminate.
Qed.

End Serving.

(** Of the routes of [main], the one that [GET /] reaches is the one the
    program registered. *)
Lemma route_for_root :
  FastAPI.route_for (routes loaded_app) "GET" "/" None
  = Some {| route_path := "/"; route_methods := ["GET"];
            route_endpoint := ep_root; include_in_schema := true |}.
Proof. reflexivity. Qed.

(** The pattern of a route also accepts its path followed by a line feed,
    so such a request reaches [root] as well. *)
Example root_path_with_line_feed :
  Main.serve (GET (String "/"%char (String "010"%char EmptyString)))
             (serving [] ∅ demo_tables demo_db false)
  = Ok ({| status_code := 200;
           body := JSONBody [ ("status", "Backend running");
                              ("module", "Foundation");
                              ("database", "SQLite") ] |},
        serving [] ∅ demo_tables demo_db false).
Proof. vm_compute. reflexivity. Qed.

(** [GET /] on an application that carries the routes of [main]: the answer
    is the value of [root], and the process is left as it was. *)
Lemma serve_root (p : Process) (a : App) (req : Request) :
  main_app p = Some a ->
  routes a = routes loaded_app ->
  method req = "GET" ->
  path req = "/" ->
  Main.serve req p
  = Ok ({| status_code := 200;
           body := JSONBody [ ("status", "Backend running");
                              ("module", "Foundation");
                              ("database", "SQLite") ] |}, p).
Proof.
  intros Ha Hr Hm Hp. unfold Main.serve, FastAPI.serve.
  rewrite (bind_Ok _ _ _ _ _ (the_app_Some _ _ Ha)), Hr, Hm, Hp.
  rewrite route_for_root. unfold FastAPI.handle.
  cbn [route_methods route_endpoint]. rewrite Hm. reflexivity.
Qed.

Lemma routes_app_with_docs (c : bool) :
  routes (app_with_docs c) = routes loaded_app.
Proof. destruct c; reflexivity. Qed.

(** Generating the OpenAPI document is an effect on the application object:
    the frame property of [GET /] is not one that every route has. *)
Example openapi_is_cached :
  exists resp,
    Main.serve (GET "/openapi.json") (serving [] ∅ demo_tables demo_db false)
    = Ok (resp, serving [] ∅ demo_tables demo_db true)
    /\ main_app (serving [] ∅ demo_tables demo_db true)
       <> main_app (serving [] ∅ demo_tables demo_db false).
Proof.
  eexists. split; [vm_compute; reflexivity|]. vm_compute. discriminate.
Qed.

(* ===================================================================== *)
(** ** The root operation                                                 *)
(* ===================================================================== *)

(** C1: whatever the process has served so far, every request [GET /],
    whatever its headers and body, is answered with status 200 and the JSON
    object of exactly the three members "status": "Backend running",
    "module": "Foundation", "database": "SQLite". *)
Theorem root_returns_200 (md : MetaData) (args : list string)
    (env : gmap string string) (st : option (gmap string Schema))
    (reqs : list Request) (resps : list Response) (p : Process)
    (hs : list (string * string)) (b : string) :
  Main.run md reqs (boot args env st) = Ok (resps, p) ->
  exists p',
    Main.serve {| method := "GET"; path := "/"; headers := hs; req_body := b |} p
    = Ok ({| status_code := 200;
             body := JSONBody [ ("status", "Backend running");
                                ("module", "Foundation");
                                ("database", "SQLite") ] |}, p').
Proof.
  intros H. destruct (run_inv _ _ _ _ _ _ _ H) as (db & c & _ & ->).
  exists (serving args env md db c).
  apply (serve_root _ (app_with_docs c)); auto using routes_app_with_docs.
Qed.

Lemma root_returns_200_witness :
  exists p',
    Main.serve {| method := "GET"; path := "/";
                  headers := [("accept", "text/html")]; req_body := "x=1" |}
               (serving [] ∅ demo_tables demo_db true)
    = Ok ({| status_code := 200;
             body := JSONBody [ ("status", "Backend running");
                                ("module", "Foundation");
                                ("database", "SQLite") ] |}, p').
Proof.
  apply (root_returns_200 demo_tables [] ∅ (Some demo_db)
           [GET "/openapi.json"]
           [ {| status_code := 200;
                body := OpenAPIBody
                  {| info_title := "Campus Data Workflow Automation System";
                     info_version := "0.1.0"; schema_paths := ["/"] |} |} ]).
  vm_compute. reflexivity.
Defined.

(** C9: [root] takes no argument, returns in every state of the process
    without raising, and returns the same mapping in any two states. *)
Theorem root_total_deterministic (p1 p2 : Process) :
  exists d : pydict,
    Main.root p1 = Ok (d, p1) /\ Main.root p2 = Ok (d, p2).
Proof. eexists. split; reflexivity. Qed.

(** C6: in every state of the process whose application object carries the
    routes of [main], whatever else the state holds, answering [GET /]
    leaves the whole state as it was: the application object, the engine
    bindings and the database.  The handler itself leaves every state as it
    was. *)
Theorem root_has_no_side_effects (p : Process) (a : App) (req : Request) :
  main_app p = Some a ->
  routes a = routes loaded_app ->
  method req = "GET" ->
  path req = "/" ->
  (exists resp p',
     Main.serve req p = Ok (resp, p') /\
     main_app p' = main_app p /\
     engines p' = engines p /\ db_engine p' = db_engine p /\
     main_engine p' = main_engine p /\
     storage p' = storage p /\
     p' = p)
  /\ exec Main.root p = Ok p.
Proof.
  intros Ha Hr Hm Hp. split; [|reflexivity].
  eexists _, p. split; [apply (serve_root p a); assumption|].
  repeat split; reflexivity.
Qed.

Lemma root_has_no_side_effects_witness :
  (exists resp p',
     Main.serve (GET "/") (serving [] ∅ demo_tables demo_db false)
     = Ok (resp, p') /\
     main_app p' = main_app (serving [] ∅ demo_tables demo_db false) /\
     engines p' = 1%nat /\ db_engine p' = Some 0%nat /\
     main_engine p' = Some 0%nat /\
     storage p' = Some (Database.ensure_tables demo_tables demo_db) /\
     p' = serving [] ∅ demo_tables demo_db false)
  /\ exec Main.root (serving [] ∅ demo_tables demo_db false)
     = Ok (serving [] ∅ demo_tables demo_db false).
Proof.
  apply (root_has_no_side_effects (serving [] ∅ demo_tables demo_db false)
           loaded_app (GET "/")); reflexivity.
Defined.

(** C5: once [main] is loaded the application object has the title
    "Campus Data Workflow Automation System" and the version "0.1.0", and it
    still has them after any sequence of requests. *)
Theorem app_metadata_fixed (md : MetaData) (args : list string)
    (env : gmap string string) (st : option (gmap string Schema))
    (reqs : list Request) (resps : list Response) (p : Process) :
  Main.run md reqs (boot args env st) = Ok (resps, p) ->
  exists a,
    main_app p = Some a /\
    title a = "Campus Data Workflow Automation System" /\
    version a = "0.1.0".
Proof.
  intros H. destruct (run_inv _ _ _ _ _ _ _ H) as (db & c & _ & ->).
  exists (app_with_docs c). destruct c; repeat split; reflexivity.
Qed.

Lemma app_metadata_fixed_witness :
  exists a,
    main_app (serving [] ∅ demo_tables demo_db true) = Some a /\
    title a = "Campus Data Workflow Automation System" /\
    version a = "0.1.0".
Proof.
  apply (app_metadata_fixed demo_tables [] ∅ (Some demo_db)
           [GET "/openapi.json"; GET "/"]
           [ {| status_code := 200;
                body := OpenAPIBody
                  {| info_title := "Campus Data Workflow Automation System";
                     info_version := "0.1.0"; schema_paths := ["/"] |} |};
             {| status_code := 200;
                body := JSONBody [ ("status", "Backend running");
                                   ("module", "Foundation");
                                   ("database", "SQLite") ] |} ]).
  vm_compute. reflexivity.
Defined.

(* ===================================================================== *)
(** ** Schema creation at startup                                         *)
(* ===================================================================== *)

Lemma create_all_Ok (md : MetaData) (e : EngineRef) (p : Process)
    (db : gmap string Schema) :
  storage p = Some db ->
  Database.create_all md e p
  = Ok (tt, set_storage (Some (Database.ensure_tables md db))
              (log (EvCreateAll e) p)).
Proof.
  intros H. unfold Database.create_all, bind, get. rewrite H. reflexivity.
Qed.

Lemma create_all_Raise (md : MetaData) (e : EngineRef) (p : Process) :
  storage p = None ->
  Database.create_all md e p
  = Raise (OperationalError "unable to open database file").
Proof.
  intros H. unfold Database.create_all, bind, get. rewrite H. reflexivity.
Qed.

Lemma create_all_inv (md : MetaData) (e : EngineRef) (p p' : Process) (u : unit) :
  Database.create_all md e p = Ok (u, p') ->
  exists db,
    storage p = Some db /\
    p' = set_storage (Some (Database.ensure_tables md db)) (log (EvCreateAll e) p).
Proof.
  destruct (storage p) as [db|] eqn:E.
  - rewrite (create_all_Ok md e p db E). intros [= _ <-]. eauto.
  - rewrite (create_all_Raise md e p E). discriminate.
Qed.

Lemma serving_ensure_tables args env (md : MetaData) (db : gmap string Schema) c :
  serving args env md (Database.ensure_tables md db) c = serving args env md db c.
Proof. unfold serving. rewrite ensure_tables_idempotent. reflexivity. Qed.

(** C2: where [create_all] has returned once, it returns again, and the
    second call leaves the tables of the database, names and schemas, as the
    first call left them.  A process restarted on the database that a run
    left behind gives the same answers to the same requests and ends in the
    same state, database included. *)
Theorem create_all_idempotent (md : MetaData) :
  (forall (e : EngineRef) (p p' : Process),
     Database.create_all md e p = Ok (tt, p') ->
     exists p'',
       Database.create_all md e p' = Ok (tt, p'') /\
       storage p'' = storage p' /\
       (forall db' db'', storage p' = Some db' -> storage p'' = Some db'' ->
                         dom db'' = dom db'))
  /\
  (forall args env st reqs resps p,
     Main.run md reqs (boot args env st) = Ok (resps, p) ->
     Main.run md reqs (restart p) = Ok (resps, p)).
Proof.
  split.
  - intros e p p' H. destruct (create_all_inv _ _ _ _ _ H) as (db & Hs & ->).
    eexists. split; [apply create_all_Ok; reflexivity|].
    cbn [storage set_storage]. rewrite ensure_tables_idempotent.
    split; [reflexivity|]. intros db' db'' [= <-] [= <-]. reflexivity.
  - intros args env st reqs resps p H.
    destruct (run_inv _ _ _ _ _ _ _ H) as (db & c & -> & ->).
    revert H. unfold restart, Main.run. cbn [argv environ storage serving].
    rewrite !(bind_Ok _ _ _ _ _ (load_reachable md args env _)).
    rewrite serving_ensure_tables. auto.
Qed.

Lemma create_all_idempotent_witness :
  (exists p'',
     Database.create_all demo_tables 0%nat
       (set_storage (Some (Database.ensure_tables demo_tables demo_db))
          (log (EvCreateAll 0%nat) (boot [] ∅ (Some demo_db))))
     = Ok (tt, p'') /\
     storage p'' = Some (Database.ensure_tables demo_tables demo_db))
  /\
  Main.run demo_tables [GET "/"] (restart (serving [] ∅ demo_tables demo_db false))
  = Ok ([ {| status_code := 200;
             body := JSONBody [ ("status", "Backend running");
                                ("module", "Foundation");
                                ("database", "SQLite") ] |} ],
        serving [] ∅ demo_tables demo_db false).
Proof.
  destruct (create_all_idempotent demo_tables) as [H1 H2]. split.
  - destruct (H1 0%nat (boot [] ∅ (Some demo_db)) _ eq_refl) as (p'' & Ha & Hb & _).
    exists p''. split; [exact Ha | exact Hb].
  - apply (H2 [] ∅ (Some demo_db)). vm_compute. reflexivity.
Defined.

(** C3: starting the process on a database that can be reached runs
    [create_all] on it, and when the process serves, with no request answered
    yet or after any number of them, every table that was in the database at
    the start is still there with the schema it had, every declared table is
    there, and every table that is there either was there before or was
    absent and is there with a schema declared for it: nothing else was
    created.  The same holds of every call of [create_all] that returns. *)
Theorem create_all_frame (md : MetaData) (args : list string)
    (env : gmap string string) (db : gmap string Schema) :
  (exists (p : Process) (db' : gmap string Schema),
     Main.load md (boot args env (Some db)) = Ok (tt, p) /\
     storage p = Some db' /\
     (forall reqs, exists resps q,
        Main.run md reqs (boot args env (Some db)) = Ok (resps, q) /\
        storage q = Some db') /\
     (forall name sch, db !! name = Some sch -> db' !! name = Some sch) /\
     (forall name, name ∈ md.*1 -> is_Some (db' !! name)) /\
     (forall name sch, db' !! name = Some sch ->
        db !! name = Some sch \/ (db !! name = None /\ (name, sch) ∈ md)))
  /\
  (forall (e : EngineRef) (p p' : Process),
     Database.create_all md e p = Ok (tt, p') ->
     exists db0 db' : gmap string Schema,
       storage p = Some db0 /\ storage p' = Some db' /\
       (forall name sch, db0 !! name = Some sch -> db' !! name = Some sch) /\
       (forall name, name ∈ md.*1 -> is_Some (db' !! name)) /\
       (forall name sch, db' !! name = Some sch ->
          db0 !! name = Some sch \/ (db0 !! name = None /\ (name, sch) ∈ md))).
Proof.
  split.
  - exists (serving args env md db false), (Database.ensure_tables md db).
    split; [apply load_reachable|]. split; [reflexivity|].
    split; [|split; [|split]].
    + intros reqs. destruct (run_reachable args env md db reqs) as (resps & c & H).
      exists resps, (serving args env md db c). split; [exact H|reflexivity].
    + intros name sch. apply ensure_tables_keeps.
    + intros name. apply ensure_tables_creates.
    + intros name sch. apply ensure_tables_origin.
  - intros e p p' H. destruct (create_all_inv _ _ _ _ _ H) as (db0 & Hs & ->).
    exists db0, (Database.ensure_tables md db0).
    split; [exact Hs|]. split; [reflexivity|].
    split; [|split].
    + intros name sch. apply ensure_tables_keeps.
    + intros name. apply ensure_tables_creates.
    + intros name sch. apply ensure_tables_origin.
Qed.

Lemma create_all_frame_witness :
  exists (p : Process) (db' : gmap string Schema),
    Main.load demo_tables (boot [] ∅ (Some demo_db)) = Ok (tt, p) /\
    storage p = Some db' /\
    db' !! "students" = Some [("id", "INTEGER")] /\
    is_Some (db' !! "courses") /\
    (forall sch, db' !! "courses" = Some sch ->
                 ("courses", sch) ∈ demo_tables).
Proof.
  destruct (create_all_frame demo_tables [] ∅ demo_db)
    as [(p & db' & Hl & Hs & _ & Hkeep & Hnew & Horigin) _].
  exists p, db'. split; [exact Hl|]. split; [exact Hs|].
  split; [apply Hkeep; reflexivity|].
  split; [apply Hnew; vm_compute; set_solver|].
  intros sch H. destruct (Horigin _ _ H) as [H'|[_ H']]; [|exact H'].
  vm_compute in H'. discriminate H'.
Defined.

(** The table that was there keeps its one column; the table that was not is
    created as declared. *)
Example create_all_demo :
  Database.ensure_tables demo_tables demo_db !! "students"
    = Some [("id", "INTEGER")]
  /\ Database.ensure_tables demo_tables demo_db !! "courses"
    = Some [("id", "INTEGER"); ("title", "VARCHAR")]
  /\ dom (Database.ensure_tables demo_tables demo_db)
    = {[ "students"; "courses" ]}.
Proof.
  split; [vm_compute; reflexivity|]. split; [vm_compute; reflexivity|].
  rewrite ensure_tables_union, dom_union_L. unfold demo_db, demo_tables.
  rewrite dom_singleton_L, dom_list_to_map_L. simpl. set_solver.
Qed.

(** C4: [create_all] raises exactly when the database cannot be reached;
    loading [main] raises exactly then, with the exception of [create_all],
    and then the process ends before it has answered any request. *)
Theorem startup_fails_iff_unreachable (md : MetaData) (args : list string)
    (env : gmap string string) (st : option (gmap string Schema)) :
  (forall e p x, Database.create_all md e p = Raise x <->
                 storage p = None /\
                 x = OperationalError "unable to open database file")
  /\
  (forall x, Main.load md (boot args env st) = Raise x <->
             st = None /\ Database.create_all md 0%nat (boot args env st) = Raise x)
  /\
  (forall reqs x, Main.load md (boot args env st) = Raise x ->
                  Main.run md reqs (boot args env st) = Raise x).
Proof.
  split; [|split].
  - intros e p x. split.
    + destruct (storage p) as [db|] eqn:E.
      * rewrite (create_all_Ok md e p db E). discriminate.
      * rewrite (create_all_Raise md e p E). intros [= <-]. auto.
    + intros [E ->]. apply create_all_Raise, E.
  - intros x. destruct st as [db|].
    + rewrite load_reachable. split; [discriminate|]. intros [[=] _].
    + rewrite load_unreachable, (create_all_Raise md 0%nat (boot args env None) eq_refl).
      tauto.
  - intros reqs x H. unfold Main.run. apply bind_Raise, H.
Qed.

Lemma startup_fails_iff_unreachable_witness :
  Main.run demo_tables [GET "/"] (boot [] ∅ None)
  = Raise (OperationalError "unable to open database file").
Proof.
  destruct (startup_fails_iff_unreachable demo_tables [] ∅ None) as (_ & _ & H).
  apply H. reflexivity.
Defined.

(* ===================================================================== *)
(** ** What a request can depend on                                       *)
(* ===================================================================== *)

Section Frame.

(** A change of the process that does not touch the application object. *)
Variable f : Process -> Process.
Hypothesis f_main_app : forall p, main_app (f p) = main_app p.
Hypothesis f_set_main_app :
  forall a p, f (set_main_app a p) = set_main_app a (f p).

Lemma call_endpoint_frame (ep : Endpoint) (p p' : Process) (r : Response) :
  FastAPI.call_endpoint Main.root ep p = Ok (r, p') ->
  FastAPI.call_endpoint Main.root ep (f p) = Ok (r, f p').
Proof.
  destruct ep; cbn [FastAPI.call_endpoint];
    unfold FastAPI.the_app, Main.root, bind, get, ret, modify;
    rewrite ?f_main_app; destruct (main_app p) as [a|]; try discriminate;
    try (intros [= <- <-]; reflexivity).
  destruct (FastAPI.openapi a) as [a' d]. intros [= <- <-].
  rewrite f_set_main_app. reflexivity.
Qed.

Lemma serve_frame (req : Request) (p p' : Process) (r : Response) :
  Main.serve req p = Ok (r, p') ->
  Main.serve req (f p) = Ok (r, f p').
Proof.
  unfold Main.serve, FastAPI.serve.
  destruct (main_app p) as [a|] eqn:Ha.
  - assert (Ha' : main_app (f p) = Some a) by (rewrite f_main_app; exact Ha).
    rewrite (bind_Ok _ _ _ _ _ (the_app_Some _ _ Ha)).
    rewrite (bind_Ok _ _ _ _ _ (the_app_Some _ _ Ha')).
    destruct (FastAPI.route_for _ _ _ _) as [rt|].
    + unfold FastAPI.handle. destruct (decide _).
      * apply call_endpoint_frame.
      * intros [= <- <-]. reflexivity.
    + destruct (_ && _); intros [= <- <-]; reflexivity.
  - unfold FastAPI.the_app, bind, get. rewrite Ha. discriminate.
Qed.

Lemma serve_all_frame (reqs : list Request) (p p' : Process)
    (rs : list Response) :
  FastAPI.serve_all Main.root reqs p = Ok (rs, p') ->
  FastAPI.serve_all Main.root reqs (f p) = Ok (rs, f p').
Proof.
  revert p rs. induction reqs as [|req reqs IH]; intros p rs; simpl.
  - intros [= <- <-]. reflexivity.
  - unfold bind at 1.
    destruct (FastAPI.serve Main.root req p) as [[r p1]|] eqn:E1; [|discriminate].
    unfold bind at 1.
    destruct (FastAPI.serve_all Main.root reqs p1) as [[rs' p2]|] eqn:E2;
      [|discriminate].
    intros [= <- <-].
    rewrite (bind_Ok _ _ _ _ _ (serve_frame req p p1 r E1)).
    rewrite (bind_Ok _ _ _ _ _ (IH _ _ E2)). reflexivity.
Qed.

End Frame.

(* ===================================================================== *)
(** ** The application object and the engine                              *)
(* ===================================================================== *)

(** C7, as the specification has it, fails: the application answers
    [GET /docs] with a page of its own, and its route table has five routes,
    not one. *)
Lemma docs_route_is_served :
  exists p a,
    Main.run demo_tables [GET "/docs"] (boot [] ∅ (Some demo_db))
    = Ok ([ {| status_code := 200;
               body := HTMLBody (SwaggerUI
                 "Campus Data Workflow Automation System - Swagger UI") |} ], p)
    /\ main_app p = Some a
    /\ map route_path (routes a)
       = [ "/openapi.json"; "/docs"; "/docs/oauth2-redirect"; "/redoc"; "/" ].
Proof.
  exists (serving [] ∅ demo_tables demo_db false), loaded_app.
  split; [vm_compute; reflexivity|]. split; reflexivity.
Qed.

(** C7, amended: [GET /] is the only route that the program registers, and
    it answers [GET] only.  Besides it the application object carries the
    four documentation routes that the constructor adds when its
    documentation URLs keep their defaults, and nothing else, after any
    sequence of requests.  The process reads neither its command-line
    arguments nor its environment variables: a run with others gives the same
    answers and ends in the same state. *)
Theorem routes_of_main (md : MetaData) (args : list string)
    (env : gmap string string) (st : option (gmap string Schema))
    (reqs : list Request) (resps : list Response) (p : Process) :
  Main.run md reqs (boot args env st) = Ok (resps, p) ->
  (exists a,
     main_app p = Some a /\
     map (fun r => (route_path r, route_methods r, route_endpoint r)) (routes a)
     = [ ("/openapi.json", ["GET"; "HEAD"], ep_openapi);
         ("/docs", ["GET"; "HEAD"], ep_swagger_ui_html);
         ("/docs/oauth2-redirect", ["GET"; "HEAD"], ep_swagger_ui_redirect);
         ("/redoc", ["GET"; "HEAD"], ep_redoc_html);
         ("/", ["GET"], ep_root) ]) /\
  List.filter registered_by_program (trace p) = [ EvAddRoute "/" true ] /\
  (forall args' env',
     Main.run md reqs (boot args' env' st) = Ok (resps, with_env args' env' p)).
Proof.
  intros H. destruct (run_inv _ _ _ _ _ _ _ H) as (db & c & -> & ->).
  split; [|split].
  - exists (app_with_docs c). split; [reflexivity|]. destruct c; reflexivity.
  - reflexivity.
  - intros args' env'. revert H. unfold Main.run.
    rewrite !(bind_Ok _ _ _ _ _ (load_reachable md _ _ db)).
    intros H.
    apply (serve_all_frame (with_env args' env')) in H; [exact H| |];
      reflexivity.
Qed.

Lemma routes_of_main_witness :
  (exists a,
     main_app (serving [] ∅ demo_tables demo_db false) = Some a /\
     map (fun r => (route_path r, route_methods r, route_endpoint r)) (routes a)
     = [ ("/openapi.json", ["GET"; "HEAD"], ep_openapi);
         ("/docs", ["GET"; "HEAD"], ep_swagger_ui_html);
         ("/docs/oauth2-redirect", ["GET"; "HEAD"], ep_swagger_ui_redirect);
         ("/redoc", ["GET"; "HEAD"], ep_redoc_html);
         ("/", ["GET"], ep_root) ]) /\
  List.filter registered_by_program (trace (serving [] ∅ demo_tables demo_db false))
  = [ EvAddRoute "/" true ] /\
  (forall args' env',
     Main.run demo_tables [GET "/docs"] (boot args' env' (Some demo_db))
     = Ok ([ {| status_code := 200;
                body := HTMLBody (SwaggerUI
                  "Campus Data Workflow Automation System - Swagger UI") |} ],
           with_env args' env' (serving [] ∅ demo_tables demo_db false))).
Proof.
  apply (routes_of_main demo_tables [] ∅ (Some demo_db) [GET "/docs"]).
  vm_compute. reflexivity.
Defined.

(** C8: in every state a run can reach there is one engine object; the
    global [engine] of [database.db] and the global [engine] of [main] both
    refer to it; it was created once, while [main] was loaded, and it is the
    engine that [create_all] was bound to; importing the engine again gives
    the same object and creates nothing. *)
Theorem single_shared_engine (md : MetaData) (args : list string)
    (env : gmap string string) (st : option (gmap string Schema))
    (reqs : list Request) (resps : list Response) (p : Process) :
  Main.run md reqs (boot args env st) = Ok (resps, p) ->
  engines p = 1%nat /\
  db_engine p = Some 0%nat /\
  main_engine p = Some 0%nat /\
  List.filter touches_engine (trace p) = [ EvCreateEngine 0%nat; EvCreateAll 0%nat ] /\
  Database.import_engine p = Ok (0%nat, p) /\
  Main.engine p = Ok (0%nat, p).
Proof.
  intros H. destruct (run_inv _ _ _ _ _ _ _ H) as (db & c & -> & ->).
  repeat split; destruct c; vm_compute; reflexivity.
Qed.

Lemma single_shared_engine_witness :
  engines (serving [] ∅ demo_tables demo_db true) = 1%nat /\
  db_engine (serving [] ∅ demo_tables demo_db true) = Some 0%nat /\
  main_engine (serving [] ∅ demo_tables demo_db true) = Some 0%nat /\
  List.filter touches_engine (trace (serving [] ∅ demo_tables demo_db true))
  = [ EvCreateEngine 0%nat; EvCreateAll 0%nat ] /\
  Database.import_engine (serving [] ∅ demo_tables demo_db true)
  = Ok (0%nat, serving [] ∅ demo_tables demo_db true) /\
  Main.engine (serving [] ∅ demo_tables demo_db true)
  = Ok (0%nat, serving [] ∅ demo_tables demo_db true).
Proof.
  apply (single_shared_engine demo_tables [] ∅ (Some demo_db)
           [GET "/"; GET "/openapi.json"]
           [ {| status_code := 200;
                body := JSONBody [ ("status", "Backend running");
                                   ("module", "Foundation");
                                   ("database", "SQLite") ] |};
             {| status_code := 200;
                body := OpenAPIBody
                  {| info_title := "Campus Data Workflow Automation System";
                     info_version := "0.1.0"; schema_paths := ["/"] |} |} ]).
  vm_compute. reflexivity.
Defined.

(** C10: in every state in which a request is answered, [create_all] has
    run, it ran before the application object was constructed and before
    [GET /] was registered, and every declared table is in the database. *)
Theorem schema_created_before_serving (md : MetaData) (args : list string)
    (env : gmap string string) (st : option (gmap string Schema))
    (reqs : list Request) (resps : list Response) (p : Process) :
  Main.run md reqs (boot args env st) = Ok (resps, p) ->
  happens_before (EvCreateAll 0%nat)
    (EvNewApp "Campus Data Workflow Automation System" "0.1.0") (trace p) /\
  happens_before (EvCreateAll 0%nat) (EvAddRoute "/" true) (trace p) /\
  tables_created md p.
Proof.
  intros H. destruct (run_inv _ _ _ _ _ _ _ H) as (db & c & -> & ->).
  split; [|split].
  - exists [ EvImport "main"; EvImport "fastapi"; EvImport "database";
             EvImport "database.db"; EvCreateEngine 0%nat;
             EvImport "database.models" ], [], (drop 8 load_trace).
    split; [reflexivity|]. split; [|apply not_elem_of_nil].
    repeat (apply not_elem_of_cons; split; [discriminate|]).
    apply not_elem_of_nil.
  - exists [ EvImport "main"; EvImport "fastapi"; EvImport "database";
             EvImport "database.db"; EvCreateEngine 0%nat;
             EvImport "database.models" ],
           (take 5 (drop 7 load_trace)), [].
    split; [reflexivity|].
    split; repeat (apply not_elem_of_cons; split; [discriminate|]);
      apply not_elem_of_nil.
  - exists (Database.ensure_tables md db). split; [reflexivity|].
    intros name. apply ensure_tables_creates.
Qed.

Lemma schema_created_before_serving_witness :
  happens_before (EvCreateAll 0%nat)
    (EvNewApp "Campus Data Workflow Automation System" "0.1.0")
    (trace (serving [] ∅ demo_tables demo_db false)) /\
  happens_before (EvCreateAll 0%nat) (EvAddRoute "/" true)
    (trace (serving [] ∅ demo_tables demo_db false)) /\
  tables_created demo_tables (serving [] ∅ demo_tables demo_db false).
Proof.
  apply (schema_created_before_serving demo_tables [] ∅ (Some demo_db)
           [GET "/"]
           [ {| status_code := 200;
                body := JSONBody [ ("status", "Backend running");
                                   ("module", "Foundation");
                                   ("database", "SQLite") ] |} ]).
  vm_compute. reflexivity.
Defined.

(* ===================================================================== *)
(** ** Further properties of the application that [main.py] builds        *)
(* ===================================================================== *)

(** On the path [/] every method other than [GET] finds the route of [root]
    as a partial match only. *)
Lemma route_for_root_other_method (m : string) :
  m <> "GET" ->
  FastAPI.route_for (routes loaded_app) m "/" None
  = Some {| route_path := "/"; route_methods := ["GET"];
            route_endpoint := ep_root; include_in_schema := true |}.
Proof.
  intros Hm.
  change (routes loaded_app) with
    [ {| route_path := "/openapi.json"; route_methods := ["GET"; "HEAD"];
         route_endpoint := ep_openapi; include_in_schema := false |};
      {| route_path := "/docs"; route_methods := ["GET"; "HEAD"];
         route_endpoint := ep_swagger_ui_html; include_in_schema := false |};
      {| route_path := "/docs/oauth2-redirect"; route_methods := ["GET"; "HEAD"];
         route_endpoint := ep_swagger_ui_redirect; include_in_schema := false |};
      {| route_path := "/redoc"; route_methods := ["GET"; "HEAD"];
         route_endpoint := ep_redoc_html; include_in_schema := false |};
      {| route_path := "/"; route_methods := ["GET"];
         route_endpoint := ep_root; include_in_schema := true |} ].
  cbn [FastAPI.route_for]. unfold FastAPI.matches. cbn [route_path route_methods].
  repeat match goal with
         | |- context [FastAPI.path_regex_match ?pat "/"] =>
             let v := eval vm_compute in (FastAPI.path_regex_match pat "/") in
             change (FastAPI.path_regex_match pat "/") with v
         end.
  cbv iota.
  destruct (decide (m ∈ ["GET"])) as [E|_]; [|reflexivity].
  apply list_elem_of_singleton in E. contradiction.
Qed.

(** X1: the route that [@app.get("/")] registers answers [GET] and nothing
    else.  A request to [/] with any other method is refused with status 405
    and the body [{"detail": "Method Not Allowed"}], and the process is left
    as it was.  The function behind the route is not called: the answer and
    the state are these whatever that function would do, raise included. *)
Theorem root_refuses_other_methods (p : Process) (a : App) (req : Request) :
  main_app p = Some a ->
  routes a = routes loaded_app ->
  path req = "/" ->
  method req <> "GET" ->
  (forall endpoint : M pydict,
     FastAPI.serve endpoint req p
     = Ok ({| status_code := 405;
              body := JSONBody [ ("detail", "Method Not Allowed") ] |}, p))
  /\
  Main.serve req p
  = Ok ({| status_code := 405;
           body := JSONBody [ ("detail", "Method Not Allowed") ] |}, p).
Proof.
  intros Ha Hr Hp Hm.
  assert (H : forall endpoint : M pydict,
             FastAPI.serve endpoint req p
             = Ok ({| status_code := 405;
                      body := JSONBody [ ("detail", "Method Not Allowed") ] |},
                   p)).
  { intros endpoint. unfold FastAPI.serve.
    rewrite (bind_Ok _ _ _ _ _ (the_app_Some _ _ Ha)), Hr, Hp.
    rewrite (route_for_root_other_method _ Hm). unfold FastAPI.handle.
    cbn [route_methods route_endpoint].
    destruct (decide (method req ∈ ["GET"])) as [E|_]; [|reflexivity].
    apply list_elem_of_singleton in E. contradiction. }
  split; [exact H|apply H].
Qed.

Lemma root_refuses_other_methods_witness :
  FastAPI.serve (raise (NameError "root"))
    {| method := "POST"; path := "/"; headers := []; req_body := "status=down" |}
    (serving [] ∅ demo_tables demo_db false)
  = Ok ({| status_code := 405;
           body := JSONBody [ ("detail", "Method Not Allowed") ] |},
        serving [] ∅ demo_tables demo_db false)
  /\
  Main.serve
    {| method := "HEAD"; path := "/"; headers := []; req_body := "" |}
    (serving [] ∅ demo_tables demo_db false)
  = Ok ({| status_code := 405;
           body := JSONBody [ ("detail", "Method Not Allowed") ] |},
        serving [] ∅ demo_tables demo_db false).
Proof.
  split.
  - apply (root_refuses_other_methods
             (serving [] ∅ demo_tables demo_db false) loaded_app
             {| method := "POST"; path := "/"; headers := [];
                req_body := "status=down" |});
      [reflexivity | reflexivity | reflexivity | discriminate].
  - apply (root_refuses_other_methods
             (serving [] ∅ demo_tables demo_db false) loaded_app
             {| method := "HEAD"; path := "/"; headers := []; req_body := "" |});
      [reflexivity | reflexivity | reflexivity | discriminate].
Defined.




(** X3: what the application answers does not depend on the database: two
    processes started on databases with different tables, and with different
    declared tables, give the same answers to the same requests. *)
Theorem responses_independent_of_database (md md' : MetaData)
    (args : list string) (env : gmap string string)
    (db db' : gmap string Schema)
    (reqs : list Request) (resps : list Response) (p : Process) :
  Main.run md reqs (boot args env (Some db)) = Ok (resps, p) ->
  exists p',
    Main.run md' reqs (boot args env (Some db')) = Ok (resps, p') /\
    main_app p' = main_app p.
Proof.
  unfold Main.run.
  rewrite !(bind_Ok _ _ _ _ _ (load_reachable _ args env _)).
  intros H.
  apply (serve_all_frame
           (set_storage (Some (Database.ensure_tables md' db')))) in H;
    [|reflexivity|reflexivity].
  eexists. split; [exact H|reflexivity].
Qed.

Lemma responses_independent_of_database_witness :
  exists p',
    Main.run [] [GET "/"; GET "/openapi.json"] (boot [] ∅ (Some ∅))
    = Ok ([ {| status_code := 200;
               body := JSONBody [ ("status", "Backend running");
                                  ("module", "Foundation");
                                  ("database", "SQLite") ] |};
            {| status_code := 200;
               body := OpenAPIBody
                 {| info_title := "Campus Data Workflow Automation System";
                    info_version := "0.1.0"; schema_paths := ["/"] |} |} ], p') /\
    main_app p' = main_app (serving [] ∅ demo_tables demo_db true).
Proof.
  apply (responses_independent_of_database demo_tables [] [] ∅ demo_db ∅).
  vm_compute. reflexivity.
Defined.
